(** * Noveyam/aws: the static page handler and the presigned URL helper

    Two Python functions are embedded here:

    - [HelloWorld.lambda_handler], from
      [sam_app/my-sam-app/hello_world/app.py];
    - [SecureShare.generate_presigned_url], from
      [secure_share/secure_share/views.py].

    Python values are a small inductive type, a Python function is a
    state-and-exception computation over a world, and the calls the code
    makes into the storage SDK are recorded in the world's log, so that
    what a call did (and did not do) can be read off afterwards. *)

From Stdlib Require Import ZArith Ascii String DecimalString DecimalZ.
From stdpp Require Import base option list strings gmap.

Set Warnings "-register-all".
Local Open Scope string_scope.

(** ** Python values, outcomes and computations *)

Module Py.

(** The values the two functions handle.  A dict with string keys is a
    finite map: Python compares dicts by their items, not by their order. *)
Inductive pyval : Type :=
| PyNone
| PyBool (b : bool)
| PyInt (n : Z)
| PyStr (s : string)
| PyList (l : list pyval)
| PyDict (d : gmap string pyval)
| PyObject (cls : string) (oid : nat).

(** A raised exception: its class name and its message. *)
Record pyexn : Type := PyExn { exn_type : string; exn_msg : string }.

(** How a call ends: with a value, or with an exception in flight. *)
Inductive outcome (A : Type) : Type :=
| Return (a : A)
| Raise (e : pyexn).
Arguments Return {A} a.
Arguments Raise {A} e.

(** A Python computation over a world [W]. *)
Definition M (W A : Type) : Type := W -> outcome A * W.

Definition ret {W A} (a : A) : M W A := fun w => (Return a, w).

Definition bind {W A B} (m : M W A) (k : A -> M W B) : M W B :=
  fun w =>
    match m w with
    | (Return a, w') => k a w'
    | (Raise e, w') => (Raise e, w')
    end.

(** Reading a component of the world (a module-level name). *)
Definition gets {W A} (f : W -> A) : M W A := fun w => (Return (f w), w).

(** A dict display [{k1: v1, ..., kn: vn}]: the items are stored from left
    to right, a later item replacing an earlier one with the same key. *)
Definition dict_display (items : list (string * pyval)) : gmap string pyval :=
  fold_left (fun d kv => <[kv.1 := kv.2]> d) items ∅.

Definition raised {A} (o : outcome A) : option pyexn :=
  match o with
  | Return _ => None
  | Raise e => Some e
  end.

Definition returned {A} (o : outcome A) : option A :=
  match o with
  | Return a => Some a
  | Raise _ => None
  end.

End Py.

Import Py.

Declare Scope py_scope.
Delimit Scope py_scope with py.
Notation "x <- m ;; k" := (Py.bind m (fun x => k))
  (at level 100, m at next level, right associativity) : py_scope.

(** ** The [str] methods used to describe the page *)

Module PyStr.

Definition LF : string := String (Ascii.ascii_of_nat 10) EmptyString.

(** [sep.join(parts)] *)
Definition join (sep : string) (parts : list string) : string :=
  String.concat sep parts.

(** [s.startswith(p)] *)
Definition startswith (s p : string) : bool := String.prefix p s.

(** [s.endswith(p)] *)
Definition endswith (s p : string) : bool :=
  String.prefix (String.rev p) (String.rev s).

(** The characters [str.strip] removes: space, [\t], [\n], [\v], [\f],
    [\r] (and the ASCII separators [\x1c] to [\x1f]). *)
Definition isspace (c : Ascii.ascii) : bool :=
  let n := Ascii.nat_of_ascii c in
  (n =? 32)%nat || ((9 <=? n)%nat && (n <=? 13)%nat)
  || ((28 <=? n)%nat && (n <=? 31)%nat).

Fixpoint lstrip (s : string) : string :=
  match s with
  | String c r => if isspace c then lstrip r else s
  | EmptyString => EmptyString
  end.

Definition rstrip (s : string) : string := String.rev (lstrip (String.rev s)).

(** [s.strip()] *)
Definition strip (s : string) : string := rstrip (lstrip s).

(** The text between the first [<tag>] and the [</tag>] that follows it. *)
Definition element_text (tag s : string) : option string :=
  let open := "<" ++ tag ++ ">" in
  let close := "</" ++ tag ++ ">" in
  match String.index 0 open s with
  | None => None
  | Some i =>
      let start := (i + String.length open)%nat in
      match String.index start close s with
      | None => None
      | Some j => Some (String.substring start (j - start) s)
      end
  end.

End PyStr.

(** ** [hello_world/app.py] *)

Module HelloWorld.

(** The triple-quoted literal of [lambda_handler], line by line: nothing
    after the opening quotes, the ten lines of the page, and four spaces
    before the closing quotes. *)
Definition html_content : string :=
  PyStr.join PyStr.LF
    [ "";
      "<!DOCTYPE html>";
      "<html>";
      "<head>";
      "    <title>Novey Cloud</title>";
      "</head>";
      "<body>";
      "    <h1>Welcome to Django!</h1>";
      "    <p>This is your index.html page.</p>";
      "</body>";
      "</html>";
      "    " ].

(** [def lambda_handler(event, context)]: neither argument is read. *)
Definition lambda_handler {W : Type} (event context : pyval) : M W pyval :=
  let html_content := html_content in
  ret (PyDict (dict_display
    [ ("statusCode", PyInt 200);
      ("headers", PyDict (dict_display [ ("Content-Type", PyStr "text/html") ]));
      ("body", PyStr html_content) ])).

End HelloWorld.

(** ** Reading a signed URL *)

Module Url.

(** The text after the first [c] of [s]. *)
Fixpoint after_char (c : Ascii.ascii) (s : string) : option string :=
  match s with
  | EmptyString => None
  | String a r => if Ascii.eqb a c then Some r else after_char c r
  end.

(** [s.split(c)] *)
Fixpoint split_on (c : Ascii.ascii) (s : string) : list string :=
  match s with
  | EmptyString => [EmptyString]
  | String a r =>
      if Ascii.eqb a c then EmptyString :: split_on c r
      else match split_on c r with
           | h :: t => String a h :: t
           | [] => [String a EmptyString]
           end
  end.

(** The rest of [s] after the prefix [p], when [s] starts with [p]. *)
Fixpoint strip_prefix (p s : string) : option string :=
  match p, s with
  | EmptyString, _ => Some s
  | String a p', String b s' => if Ascii.eqb a b then strip_prefix p' s' else None
  | String _ _, EmptyString => None
  end.

Fixpoint first_some {A} (l : list (option A)) : option A :=
  match l with
  | [] => None
  | Some a :: _ => Some a
  | None :: l' => first_some l'
  end.

(** The value of the first [name=value] pair of the query string. *)
Definition query_param (name url : string) : option string :=
  match after_char "?"%char url with
  | None => None
  | Some q => first_some (map (strip_prefix (name ++ "=")) (split_on "&"%char q))
  end.

Definition parse_int (s : string) : option Z :=
  Z.of_int <$> NilZero.int_of_string s.

Definition print_int (n : Z) : string := NilZero.string_of_int (Z.to_int n).

(** The expiry parameter of a signed URL, in seconds. *)
Definition expiry (url : string) : option Z :=
  match query_param "X-Amz-Expires" url with
  | None => None
  | Some v => parse_int v
  end.

(** [sub in s] *)
Definition contains (s sub : string) : Prop :=
  exists pre post, s = pre ++ sub ++ post.

(** Characters that stand for themselves in the path of a URL. *)
Definition safe_char (c : Ascii.ascii) : bool :=
  let n := Ascii.nat_of_ascii c in
  ((48 <=? n)%nat && (n <=? 57)%nat)
  || ((65 <=? n)%nat && (n <=? 90)%nat)
  || ((97 <=? n)%nat && (n <=? 122)%nat)
  || (n =? 45)%nat || (n =? 46)%nat || (n =? 47)%nat
  || (n =? 95)%nat || (n =? 126)%nat.

Fixpoint safe (s : string) : bool :=
  match s with
  | EmptyString => true
  | String c r => safe_char c && safe r
  end.

End Url.

(** ** [secure_share/views.py] *)

Module SecureShare.

(** The arguments of a call [boto3.client(service, region_name=...,
    aws_access_key_id=..., aws_secret_access_key=...)]. *)
Record ClientArgs : Type := {
  service_name : pyval;
  region_name : pyval;
  aws_access_key_id : pyval;
  aws_secret_access_key : pyval
}.

(** The arguments of a call
    [client.generate_presigned_url(ClientMethod, Params=..., ExpiresIn=...)]. *)
Record SignRequest : Type := {
  ClientMethod : pyval;
  Params : pyval;
  ExpiresIn : pyval
}.

(** The storage SDK is an external collaborator.  Its two entry points may
    return or raise, and may read and change a state of their own (clock,
    sessions, network); nothing else is known about them. *)
Class Boto3 : Type := {
  sdk_state : Type;
  boto3_client : ClientArgs -> M sdk_state pyval;
  client_generate_presigned_url : pyval -> SignRequest -> M sdk_state pyval
}.

(** What the outside can observe of a run: each call into the SDK, with
    its arguments and the way it ended. *)
Inductive Event : Type :=
| ClientCreated (args : ClientArgs) (res : outcome pyval)
| SignRequested (self : pyval) (req : SignRequest) (res : outcome pyval).

Definition event_outcome (ev : Event) : outcome pyval :=
  match ev with
  | ClientCreated _ res => res
  | SignRequested _ _ res => res
  end.

Fixpoint sign_requests (evs : list Event) : list (pyval * SignRequest) :=
  match evs with
  | [] => []
  | SignRequested self req _ :: evs' => (self, req) :: sign_requests evs'
  | ClientCreated _ _ :: evs' => sign_requests evs'
  end.

Fixpoint client_requests (evs : list Event) : list ClientArgs :=
  match evs with
  | [] => []
  | ClientCreated args _ :: evs' => args :: client_requests evs'
  | SignRequested _ _ _ :: evs' => client_requests evs'
  end.

(** [django.conf.settings] is the mapping of the names the settings module
    defines to their values.  The four names the view reads, each with the
    value it has when the settings define it. *)
Definition AWS_S3_REGION_NAME (st : gmap string pyval) : option pyval :=
  st !! "AWS_S3_REGION_NAME".

Definition AWS_ACCESS_KEY_ID (st : gmap string pyval) : option pyval :=
  st !! "AWS_ACCESS_KEY_ID".

Definition AWS_SECRET_ACCESS_KEY (st : gmap string pyval) : option pyval :=
  st !! "AWS_SECRET_ACCESS_KEY".

Definition AWS_STORAGE_BUCKET_NAME (st : gmap string pyval) : option pyval :=
  st !! "AWS_STORAGE_BUCKET_NAME".

(** What [settings.name] raises when the settings do not define [name]. *)
Definition attribute_error (name : string) : pyexn :=
  PyExn "AttributeError" ("'Settings' object has no attribute '" ++ name ++ "'").

Section View.

Context {sdk_impl : Boto3}.

(** The world of the view: the process-wide settings, the state of the
    SDK, and the log of the calls made into it.  [views.py] defines no
    module-level variable of its own, so the world has no other part. *)
Record World : Type := {
  settings : gmap string pyval;
  sdk : sdk_state;
  log : list Event
}.

(** [settings.name]: the value, or [AttributeError] for an undefined name. *)
Definition settings_attr (name : string) : M World pyval :=
  fun w =>
    match settings w !! name with
    | Some v => (Return v, w)
    | None => (Raise (attribute_error name), w)
    end.

(** [boto3.client(...)], logged. *)
Definition call_boto3_client (args : ClientArgs) : M World pyval :=
  fun w =>
    let '(res, s) := boto3_client args (sdk w) in
    (res, {| settings := settings w; sdk := s;
             log := log w ++ [ClientCreated args res] |}).

(** [self.generate_presigned_url(...)], logged. *)
Definition call_generate_presigned_url (self : pyval) (req : SignRequest)
  : M World pyval :=
  fun w =>
    let '(res, s) := client_generate_presigned_url self req (sdk w) in
    (res, {| settings := settings w; sdk := s;
             log := log w ++ [SignRequested self req res] |}).

(** [def generate_presigned_url(file_key, expiration=3600)].  An omitted
    [expiration] is [None] here and takes the default of the signature.
    Arguments are evaluated from left to right: region, key id and secret
    are read before the client is built, and the bucket name after. *)
Definition generate_presigned_url (file_key : pyval) (expiration : option pyval)
  : M World pyval :=
  let expiration := default (PyInt 3600) expiration in
  (region <- settings_attr "AWS_S3_REGION_NAME" ;;
   key_id <- settings_attr "AWS_ACCESS_KEY_ID" ;;
   secret <- settings_attr "AWS_SECRET_ACCESS_KEY" ;;
   s3_client <- call_boto3_client
     {| service_name := PyStr "s3";
        region_name := region;
        aws_access_key_id := key_id;
        aws_secret_access_key := secret |} ;;
   bucket <- settings_attr "AWS_STORAGE_BUCKET_NAME" ;;
   call_generate_presigned_url s3_client
     {| ClientMethod := PyStr "get_object";
        Params := PyDict (dict_display [ ("Bucket", bucket); ("Key", file_key) ]);
        ExpiresIn := expiration |})%py.

(** The SDK calls a computation adds to the log when run from [w]. *)
Definition new_events {A} (m : M World A) (w : World) : list Event :=
  drop (length (log w)) (log (m w).2).

End View.

Arguments World : clear implicits.

(** *** What a run does, read off the settings and the SDK *)

(** The names read before the client is built, in the order of reading,
    and all the names the view reads. *)
Definition client_settings : list string :=
  [ "AWS_S3_REGION_NAME"; "AWS_ACCESS_KEY_ID"; "AWS_SECRET_ACCESS_KEY" ].

Definition view_settings : list string :=
  client_settings ++ [ "AWS_STORAGE_BUCKET_NAME" ].

(** The first name of [names] that the settings do not define. *)
Fixpoint first_undefined (names : list string) (st : gmap string pyval)
  : option string :=
  match names with
  | [] => None
  | name :: rest =>
      match st !! name with
      | None => Some name
      | Some _ => first_undefined rest st
      end
  end.

(** The client arguments the view builds, when the settings define the
    three names they are read from. *)
Definition client_args_of (st : gmap string pyval) : option ClientArgs :=
  match AWS_S3_REGION_NAME st, AWS_ACCESS_KEY_ID st, AWS_SECRET_ACCESS_KEY st with
  | Some region, Some key_id, Some secret =>
      Some {| service_name := PyStr "s3";
              region_name := region;
              aws_access_key_id := key_id;
              aws_secret_access_key := secret |}
  | _, _, _ => None
  end.

(** The signing request the view builds for a bucket name. *)
Definition sign_request_of (bucket file_key : pyval) (expiration : option pyval)
  : SignRequest :=
  {| ClientMethod := PyStr "get_object";
     Params := PyDict (dict_display [ ("Bucket", bucket); ("Key", file_key) ]);
     ExpiresIn := default (PyInt 3600) expiration |}.

Section Runs.

Context {sdk_impl : Boto3}.

(** The four ways a run from [w] can go, with its outcome, the world it
    leaves and the calls it made: a name of the client settings is
    undefined; the client could not be built; the client was built and the
    bucket name is undefined; the client was built and asked to sign. *)
Inductive view_run (file_key : pyval) (expiration : option pyval)
  (w : World sdk_impl)
  : outcome pyval -> World sdk_impl -> list Event -> Prop :=
| run_setting_undefined (name : string) :
    first_undefined client_settings (settings w) = Some name ->
    client_args_of (settings w) = None ->
    view_run file_key expiration w (Raise (attribute_error name)) w []
| run_client_failed (args : ClientArgs) (e : pyexn) (s1 : sdk_state) :
    client_args_of (settings w) = Some args ->
    boto3_client args (sdk w) = (Raise e, s1) ->
    view_run file_key expiration w
      (Raise e)
      {| settings := settings w; sdk := s1;
         log := log w ++ [ClientCreated args (Raise e)] |}
      [ClientCreated args (Raise e)]
| run_bucket_undefined (args : ClientArgs) (c : pyval) (s1 : sdk_state) :
    client_args_of (settings w) = Some args ->
    boto3_client args (sdk w) = (Return c, s1) ->
    AWS_STORAGE_BUCKET_NAME (settings w) = None ->
    view_run file_key expiration w
      (Raise (attribute_error "AWS_STORAGE_BUCKET_NAME"))
      {| settings := settings w; sdk := s1;
         log := log w ++ [ClientCreated args (Return c)] |}
      [ClientCreated args (Return c)]
| run_signed (args : ClientArgs) (c : pyval) (s1 : sdk_state) (bucket : pyval)
    (res : outcome pyval) (s2 : sdk_state) :
    client_args_of (settings w) = Some args ->
    boto3_client args (sdk w) = (Return c, s1) ->
    AWS_STORAGE_BUCKET_NAME (settings w) = Some bucket ->
    client_generate_presigned_url c
      (sign_request_of bucket file_key expiration) s1 = (res, s2) ->
    view_run file_key expiration w
      res
      {| settings := settings w; sdk := s2;
         log := log w
                ++ [ClientCreated args (Return c);
                    SignRequested c
                      (sign_request_of bucket file_key expiration) res] |}
      [ClientCreated args (Return c);
       SignRequested c (sign_request_of bucket file_key expiration) res].

End Runs.

End SecureShare.

(** ** A reference storage client

    One implementation of the SDK interface, used to run the view on
    concrete worlds.  It builds a client unless only one half of the
    credentials is given, and signs a request of a client it built when
    that client has credentials and the request is well formed. *)

Module ReferenceSdk.

Import SecureShare.

Record state : Type := {
  next_oid : nat;
  clients : gmap nat ClientArgs
}.

Definition is_none (v : pyval) : bool :=
  match v with
  | PyNone => true
  | _ => false
  end.

Definition partial_credentials (missing : string) : pyexn :=
  PyExn "PartialCredentialsError"
    ("Partial credentials found in explicit, missing: " ++ missing).

Definition client (args : ClientArgs) : M state pyval :=
  fun s =>
    match is_none (aws_access_key_id args), is_none (aws_secret_access_key args) with
    | false, true => (Raise (partial_credentials "aws_secret_access_key"), s)
    | true, false => (Raise (partial_credentials "aws_access_key_id"), s)
    | _, _ =>
        (Return (PyObject "S3" (next_oid s)),
         {| next_oid := S (next_oid s);
            clients := <[next_oid s := args]> (clients s) |})
    end.

Definition object_url (bucket key : string) : string :=
  "https://" ++ bucket ++ ".s3.amazonaws.com/" ++ key.

Definition query (expires_in : Z) : string :=
  "X-Amz-Algorithm=AWS4-HMAC-SHA256"
  ++ "&" ++ ("X-Amz-Expires=" ++ Url.print_int expires_in)
  ++ "&" ++ "X-Amz-SignedHeaders=host".

Definition presigned_url (bucket key : string) (expires_in : Z) : string :=
  object_url bucket key ++ "?" ++ query expires_in.

Definition sign (req : SignRequest) : outcome pyval :=
  match ClientMethod req, Params req, ExpiresIn req with
  | PyStr _, PyDict d, PyInt n =>
      match d !! "Bucket", d !! "Key" with
      | Some (PyStr b), Some (PyStr k) =>
          if Url.safe b && Url.safe k
          then Return (PyStr (presigned_url b k n))
          else Raise (PyExn "ParamValidationError" "Parameter validation failed")
      | _, _ => Raise (PyExn "ParamValidationError" "Parameter validation failed")
      end
  | _, _, _ => Raise (PyExn "ParamValidationError" "Parameter validation failed")
  end.

Definition generate_presigned_url (self : pyval) (req : SignRequest)
  : M state pyval :=
  fun s =>
    match self with
    | PyObject _ oid =>
        match clients s !! oid with
        | Some args =>
            if is_none (aws_access_key_id args)
            then (Raise (PyExn "NoCredentialsError" "Unable to locate credentials"), s)
            else (sign req, s)
        | None => (Raise (PyExn "AttributeError" "generate_presigned_url"), s)
        end
    | _ => (Raise (PyExn "AttributeError" "generate_presigned_url"), s)
    end.

#[export] Instance sdk : Boto3 := {|
  sdk_state := state;
  boto3_client := client;
  client_generate_presigned_url := generate_presigned_url
|}.

Definition initial : state := {| next_oid := 0; clients := ∅ |}.

(** Configurations: complete credentials, no secret, no credentials, and
    two in which the settings do not define a name the view reads. *)
Definition configured : gmap string pyval :=
  dict_display
    [ ("AWS_S3_REGION_NAME", PyStr "us-east-1");
      ("AWS_ACCESS_KEY_ID", PyStr "AKIAEXAMPLE");
      ("AWS_SECRET_ACCESS_KEY", PyStr "secret");
      ("AWS_STORAGE_BUCKET_NAME", PyStr "shared-files") ].

Definition half_configured : gmap string pyval :=
  <["AWS_SECRET_ACCESS_KEY" := PyNone]> configured.

Definition unconfigured : gmap string pyval :=
  <["AWS_ACCESS_KEY_ID" := PyNone]> half_configured.

(** The same bucket, reached from another region with other credentials. *)
Definition elsewhere : gmap string pyval :=
  dict_display
    [ ("AWS_S3_REGION_NAME", PyStr "eu-west-1");
      ("AWS_ACCESS_KEY_ID", PyStr "AKIAOTHER");
      ("AWS_SECRET_ACCESS_KEY", PyStr "other");
      ("AWS_STORAGE_BUCKET_NAME", PyStr "shared-files") ].

Definition without_bucket : gmap string pyval :=
  delete "AWS_STORAGE_BUCKET_NAME" configured.

Definition without_region : gmap string pyval :=
  delete "AWS_S3_REGION_NAME" configured.

Definition world_of (st : gmap string pyval) : World sdk :=
  {| settings := st; SecureShare.sdk := initial; log := [] |}.

End ReferenceSdk.

(** ** A storage client that signs in the older query format

    A second implementation of the SDK interface: its URLs carry the key
    id, a signature and, as [Expires], the time at which the URL stops
    being valid (the time of signing plus the requested lifetime), as the
    version 2 signing of the storage service does. *)

Module LegacySdk.

Import SecureShare.

Record state : Type := {
  now : Z;
  key_id : pyval
}.

Definition client (args : ClientArgs) : M state pyval :=
  fun s =>
    (Return (PyObject "S3" 0),
     {| now := now s; key_id := aws_access_key_id args |}).

Definition presigned_url (bucket key access_key : string) (expires_at : Z)
  : string :=
  "https://" ++ bucket ++ ".s3.amazonaws.com/" ++ key
  ++ "?AWSAccessKeyId=" ++ access_key
  ++ "&Signature=2jmj7l5rSw0yVb%2FvlWAYkK%2FYBwk%3D"
  ++ "&Expires=" ++ Url.print_int expires_at.

Definition generate_presigned_url (self : pyval) (req : SignRequest)
  : M state pyval :=
  fun s =>
    match key_id s, Params req, ExpiresIn req with
    | PyStr access_key, PyDict d, PyInt n =>
        match d !! "Bucket", d !! "Key" with
        | Some (PyStr b), Some (PyStr k) =>
            (Return (PyStr (presigned_url b k access_key (now s + n))), s)
        | _, _ =>
            (Raise (PyExn "ParamValidationError" "Parameter validation failed"), s)
        end
    | PyStr _, _, _ =>
        (Raise (PyExn "ParamValidationError" "Parameter validation failed"), s)
    | _, _, _ =>
        (Raise (PyExn "NoCredentialsError" "Unable to locate credentials"), s)
    end.

#[export] Instance sdk : Boto3 := {|
  sdk_state := state;
  boto3_client := client;
  client_generate_presigned_url := generate_presigned_url
|}.

(** A process whose clock reads 1700000000 when it signs. *)
Definition world_of (st : gmap string pyval) : World sdk :=
  {| settings := st;
     SecureShare.sdk := {| now := 1700000000; key_id := PyNone |};
     log := [] |}.

End LegacySdk.

(** ** Observations on a response *)

Module Response.

(** The [body] of a response, when it has one that is a string. *)
Definition body_of (v : pyval) : option string :=
  match v with
  | PyDict d =>
      match d !! "body" with
      | Some (PyStr s) => Some s
      | _ => None
      end
  | _ => None
  end.

(** A response record: an integer [statusCode], a [headers] mapping and a
    string [body]. *)
Definition is_response (v : pyval) : bool :=
  match v with
  | PyDict d =>
      match d !! "statusCode", d !! "headers", d !! "body" with
      | Some (PyInt _), Some (PyDict _), Some (PyStr _) => true
      | _, _, _ => false
      end
  | _ => false
  end.

End Response.

(** ** A process that serves several requests *)

Module Process.

Import SecureShare.

Section Calls.

Context {sdk_impl : Boto3}.

(** The world after the view has been called once for each entry of
    [calls], in turn, each call starting from the world the one before
    left, whether that one returned or raised. *)
Fixpoint after_calls (calls : list (pyval * option pyval)) (w : World sdk_impl)
  : World sdk_impl :=
  match calls with
  | [] => w
  | (file_key, expiration) :: rest =>
      after_calls rest (generate_presigned_url file_key expiration w).2
  end.

(** Logs made of blocks: a request for a client that was not followed by
    a signing request, or a client built and at once asked to sign. *)
Inductive paired_log : list Event -> Prop :=
| paired_nil : paired_log []
| paired_alone (evs : list Event) (args : ClientArgs) (res : outcome pyval) :
    paired_log evs ->
    paired_log (evs ++ [ClientCreated args res])
| paired_signed (evs : list Event) (args : ClientArgs) (c : pyval)
    (req : SignRequest) (res : outcome pyval) :
    paired_log evs ->
    paired_log (evs ++ [ClientCreated args (Return c); SignRequested c req res]).

End Calls.

End Process.

(** * Properties of the static page handler *)

Section HelloWorldProperties.

Import HelloWorld.

(** C1.  Whatever the event, the context and the world (an empty or null
    event and context included), the handler returns one and the same
    record: its fields are exactly [statusCode], [headers] and [body];
    [statusCode] is 200, [headers] is the one-entry mapping of
    [Content-Type] to [text/html], and [body] is the fixed page. *)
Theorem lambda_handler_fixed_response :
  exists resp headers : gmap string pyval,
    (forall (W : Type) (event context : pyval) (w : W),
        (lambda_handler event context w).1 = Return (PyDict resp))
    /\ dom resp = ({[ "statusCode"; "headers"; "body" ]} : gset string)
    /\ resp !! "statusCode" = Some (PyInt 200)
    /\ resp !! "headers" = Some (PyDict headers)
    /\ headers = {[ "Content-Type" := PyStr "text/html" ]}
    /\ resp !! "body" = Some (PyStr html_content).
Proof.
  eexists. eexists. split; [ intros; reflexivity | ].
  repeat split; vm_compute; reflexivity.
Qed.

(** The handler on a null event and context, and on an empty event. *)
Example lambda_handler_null_event :
  Response.body_of <$> returned (lambda_handler PyNone PyNone tt).1
  = Some (Some html_content).
Proof. vm_compute. reflexivity. Qed.

Example lambda_handler_empty_event :
  (lambda_handler (PyDict ∅) (PyObject "LambdaContext" 0) tt).1
  = (lambda_handler PyNone PyNone tt).1.
Proof. reflexivity. Qed.

(** C6.  Two invocations, on any events, contexts and worlds, return equal
    records with the same body string, character for character, and each
    leaves its world as it found it. *)
Theorem lambda_handler_input_independent
  (W1 W2 : Type) (event1 context1 event2 context2 : pyval) (w1 : W1) (w2 : W2) :
  let r1 := lambda_handler event1 context1 w1 in
  let r2 := lambda_handler event2 context2 w2 in
  r1.1 = r2.1
  /\ (exists body : string,
        Response.body_of <$> returned r1.1 = Some (Some body)
        /\ Response.body_of <$> returned r2.1 = Some (Some body)
        /\ list_ascii_of_string body = list_ascii_of_string html_content)
  /\ r1.2 = w1
  /\ r2.2 = w2.
Proof.
  cbv zeta. split; [ reflexivity | ]. split; [ | split; reflexivity ].
  exists html_content. repeat split; vm_compute; reflexivity.
Qed.

(** C7.  The handler has no error path: on every input it returns, what it
    returns is a response record, and no exception is its outcome. *)
Theorem lambda_handler_never_raises
  (W : Type) (event context : pyval) (w : W) :
  (exists v : pyval,
      (lambda_handler event context w).1 = Return v
      /\ Response.is_response v = true)
  /\ raised (lambda_handler event context w).1 = None
  /\ (forall e : pyexn, (lambda_handler event context w).1 <> Raise e).
Proof.
  split; [ | split ].
  - eexists. split; [ reflexivity | vm_compute; reflexivity ].
  - reflexivity.
  - intros e He. discriminate He.
Qed.

(** C10.  The body is not a trimmed document: it starts with a newline
    before the doctype and ends with a newline and four spaces after the
    closing tag, so stripping it changes it; its title is [Novey Cloud] and
    its heading [Welcome to Django!]. *)
Theorem html_content_untrimmed
  (W : Type) (event context : pyval) (w : W) :
  exists body : string,
    Response.body_of <$> returned (lambda_handler event context w).1
    = Some (Some body)
    /\ PyStr.startswith body (PyStr.LF ++ "<!DOCTYPE html>") = true
    /\ PyStr.endswith body ("</html>" ++ PyStr.LF ++ "    ") = true
    /\ PyStr.strip body <> body
    /\ String.length body = (String.length (PyStr.strip body) + 6)%nat
    /\ PyStr.element_text "title" body = Some "Novey Cloud"
    /\ PyStr.element_text "h1" body = Some "Welcome to Django!".
Proof.
  exists html_content.
  split; [ vm_compute; reflexivity | ].
  split; [ vm_compute; reflexivity | ].
  split; [ vm_compute; reflexivity | ].
  split; [ vm_compute; discriminate | ].
  repeat split; vm_compute; reflexivity.
Qed.

End HelloWorldProperties.

(** * Properties of the presigned URL helper *)

Section ViewProperties.

Import SecureShare.

Context {sdk_impl : Boto3}.

Implicit Types (file_key : pyval) (expiration : option pyval) (w : World sdk_impl).

Lemma first_undefined_spec (names : list string) (st : gmap string pyval)
  (name : string) :
  first_undefined names st = Some name -> In name names /\ st !! name = None.
Proof.
  induction names as [ | n names IH ]; simpl; [ discriminate | ].
  destruct (st !! n) eqn:Hn.
  - intros H. destruct (IH H) as [Hin Hundef]. split; [ right | ]; assumption.
  - intros [= <-]. split; [ left; reflexivity | exact Hn ].
Qed.

Lemma client_settings_in_view_settings (name : string) :
  In name client_settings -> In name view_settings.
Proof. intros H. apply in_or_app. left. exact H. Qed.

Lemma bucket_in_view_settings : In "AWS_STORAGE_BUCKET_NAME" view_settings.
Proof. apply in_or_app. right. left. reflexivity. Qed.

(** The arguments of the client are the three settings, for the service
    [s3]. *)
Lemma client_args_of_fields (st : gmap string pyval) (args : ClientArgs) :
  client_args_of st = Some args ->
  service_name args = PyStr "s3"
  /\ AWS_S3_REGION_NAME st = Some (region_name args)
  /\ AWS_ACCESS_KEY_ID st = Some (aws_access_key_id args)
  /\ AWS_SECRET_ACCESS_KEY st = Some (aws_secret_access_key args).
Proof.
  unfold client_args_of.
  destruct (AWS_S3_REGION_NAME st), (AWS_ACCESS_KEY_ID st),
    (AWS_SECRET_ACCESS_KEY st); try discriminate.
  intros [= <-]. repeat split; reflexivity.
Qed.

Lemma client_args_of_defined (st : gmap string pyval) (args : ClientArgs)
  (name : string) :
  client_args_of st = Some args -> In name client_settings -> st !! name <> None.
Proof.
  intros Hargs. destruct (client_args_of_fields st args Hargs)
    as (_ & Hr & Hk & Hs).
  unfold AWS_S3_REGION_NAME, AWS_ACCESS_KEY_ID, AWS_SECRET_ACCESS_KEY in *.
  intros [<- | [<- | [<- | []]]]; congruence.
Qed.

(** Every run of the view has one of the four shapes of [view_run]. *)
Lemma generate_presigned_url_run file_key expiration w :
  view_run file_key expiration w
    (generate_presigned_url file_key expiration w).1
    (generate_presigned_url file_key expiration w).2
    (new_events (generate_presigned_url file_key expiration) w).
Proof.
  unfold new_events, generate_presigned_url, bind, settings_attr,
    call_boto3_client, call_generate_presigned_url.
  destruct (settings w !! "AWS_S3_REGION_NAME") as [region | ] eqn:Hregion;
    cbn [fst snd settings sdk log].
  2: { rewrite drop_all. apply run_setting_undefined.
       - simpl. rewrite Hregion. reflexivity.
       - unfold client_args_of, AWS_S3_REGION_NAME. rewrite Hregion. reflexivity. }
  destruct (settings w !! "AWS_ACCESS_KEY_ID") as [key_id | ] eqn:Hkey;
    cbn [fst snd settings sdk log].
  2: { rewrite drop_all. apply run_setting_undefined.
       - simpl. rewrite Hregion, Hkey. reflexivity.
       - unfold client_args_of, AWS_S3_REGION_NAME, AWS_ACCESS_KEY_ID.
         rewrite Hregion, Hkey. reflexivity. }
  destruct (settings w !! "AWS_SECRET_ACCESS_KEY") as [secret | ] eqn:Hsecret;
    cbn [fst snd settings sdk log].
  2: { rewrite drop_all. apply run_setting_undefined.
       - simpl. rewrite Hregion, Hkey, Hsecret. reflexivity.
       - unfold client_args_of, AWS_S3_REGION_NAME, AWS_ACCESS_KEY_ID,
           AWS_SECRET_ACCESS_KEY.
         rewrite Hregion, Hkey, Hsecret. reflexivity. }
  assert (Hargs : client_args_of (settings w)
                  = Some {| service_name := PyStr "s3";
                            region_name := region;
                            aws_access_key_id := key_id;
                            aws_secret_access_key := secret |}).
  { unfold client_args_of, AWS_S3_REGION_NAME, AWS_ACCESS_KEY_ID,
      AWS_SECRET_ACCESS_KEY.
    rewrite Hregion, Hkey, Hsecret. reflexivity. }
  destruct (boto3_client _ (sdk w)) as [[c | e] s1] eqn:Hclient;
    cbn [fst snd settings sdk log].
  2: { rewrite drop_app_length.
       exact (run_client_failed file_key expiration w _ e s1 Hargs Hclient). }
  destruct (settings w !! "AWS_STORAGE_BUCKET_NAME") as [bucket | ] eqn:Hbucket;
    cbn [fst snd settings sdk log].
  2: { rewrite drop_app_length.
       exact (run_bucket_undefined file_key expiration w _ c s1
                Hargs Hclient Hbucket). }
  destruct (client_generate_presigned_url c _ s1) as [res s2] eqn:Hsign.
  cbn [fst snd settings sdk log].
  rewrite <- app_assoc, drop_app_length.
  exact (run_signed file_key expiration w _ c s1 bucket res s2
           Hargs Hclient Hbucket Hsign).
Qed.

(** The signing requests of a run: the one for the client just built, when
    there is a client and a bucket name, and none otherwise. *)
Lemma view_sign_requests file_key expiration w :
  sign_requests (new_events (generate_presigned_url file_key expiration) w)
  = match client_args_of (settings w) with
    | Some args =>
        match (boto3_client args (sdk w)).1, AWS_STORAGE_BUCKET_NAME (settings w) with
        | Return c, Some bucket =>
            [(c, sign_request_of bucket file_key expiration)]
        | _, _ => []
        end
    | None => []
    end.
Proof.
  destruct (generate_presigned_url_run file_key expiration w)
    as [name Hname Hargs | args e s1 Hargs Hclient
        | args c s1 Hargs Hclient Hbucket
        | args c s1 bucket res s2 Hargs Hclient Hbucket Hsign];
    rewrite Hargs; try rewrite Hclient; try rewrite Hbucket; reflexivity.
Qed.

(** An error of the SDK is the error of the view. *)
Lemma sdk_error_is_raised file_key expiration w (e : pyexn) :
  Exists (fun ev => event_outcome ev = Raise e)
    (new_events (generate_presigned_url file_key expiration) w) ->
  (generate_presigned_url file_key expiration w).1 = Raise e.
Proof.
  destruct (generate_presigned_url_run file_key expiration w)
    as [name Hname Hargs | args e' s1 Hargs Hclient
        | args c s1 Hargs Hclient Hbucket
        | args c s1 bucket res s2 Hargs Hclient Hbucket Hsign];
    rewrite ?Exists_cons, Exists_nil; simpl.
  - intros [].
  - intros [H | []]. exact H.
  - intros [H | []]. discriminate H.
  - intros [H | [H | []]]; [ discriminate H | exact H ].
Qed.

(** What the view raises was raised by the SDK, or is the error of reading
    a name the settings do not define, no call into the SDK having
    raised. *)
Lemma view_error_cases file_key expiration w (e : pyexn) :
  (generate_presigned_url file_key expiration w).1 = Raise e ->
  Exists (fun ev => event_outcome ev = Raise e)
    (new_events (generate_presigned_url file_key expiration) w)
  \/ (Forall (fun ev => raised (event_outcome ev) = None)
        (new_events (generate_presigned_url file_key expiration) w)
      /\ exists name : string,
           In name view_settings
           /\ settings w !! name = None
           /\ e = attribute_error name).
Proof.
  destruct (generate_presigned_url_run file_key expiration w)
    as [name Hname Hargs | args e' s1 Hargs Hclient
        | args c s1 Hargs Hclient Hbucket
        | args c s1 bucket res s2 Hargs Hclient Hbucket Hsign].
  - intros [= <-]. right. split; [ constructor | ].
    destruct (first_undefined_spec _ _ _ Hname) as [Hin Hundef].
    exists name. split; [ apply client_settings_in_view_settings, Hin | ].
    split; [ exact Hundef | reflexivity ].
  - intros H. left. apply Exists_cons_hd. exact H.
  - intros [= <-]. right. split; [ repeat constructor | ].
    exists "AWS_STORAGE_BUCKET_NAME".
    split; [ apply bucket_in_view_settings | ].
    split; [ exact Hbucket | reflexivity ].
  - intros H. left. apply Exists_cons_tl, Exists_cons_hd. exact H.
Qed.

(** A run that issued no signing request goes the same way whatever the
    key and the expiration. *)
Lemma unsigned_run_ignores_arguments
  file_key1 expiration1 file_key2 expiration2 w :
  sign_requests (new_events (generate_presigned_url file_key1 expiration1) w) = [] ->
  generate_presigned_url file_key2 expiration2 w
  = generate_presigned_url file_key1 expiration1 w.
Proof.
  pose proof (surjective_pairing (generate_presigned_url file_key1 expiration1 w)) as E1.
  pose proof (surjective_pairing (generate_presigned_url file_key2 expiration2 w)) as E2.
  rewrite E1, E2.
  destruct (generate_presigned_url_run file_key1 expiration1 w)
    as [name Hname Hargs | args e s1 Hargs Hclient
        | args c s1 Hargs Hclient Hbucket
        | args c s1 bucket res s2 Hargs Hclient Hbucket Hsign];
    destruct (generate_presigned_url_run file_key2 expiration2 w)
      as [name' Hname' Hargs' | args' e' s1' Hargs' Hclient'
          | args' c' s1' Hargs' Hclient' Hbucket'
          | args' c' s1' bucket' res' s2' Hargs' Hclient' Hbucket' Hsign'];
    rewrite Hargs in Hargs'; try discriminate Hargs';
    try (injection Hargs' as <-; rewrite Hclient in Hclient';
         try discriminate Hclient'; injection Hclient' as <- <-);
    try (rewrite Hbucket in Hbucket'; discriminate Hbucket');
    intros Hnone; try discriminate Hnone.
  - rewrite Hname in Hname'. injection Hname' as <-. reflexivity.
  - reflexivity.
  - reflexivity.
Qed.

(** The fields of the request the view builds. *)
Lemma sign_request_of_fields (bucket : pyval) file_key expiration :
  ClientMethod (sign_request_of bucket file_key expiration) = PyStr "get_object"
  /\ ExpiresIn (sign_request_of bucket file_key expiration)
     = default (PyInt 3600) expiration
  /\ exists d : gmap string pyval,
       Params (sign_request_of bucket file_key expiration) = PyDict d
       /\ d !! "Bucket" = Some bucket
       /\ d !! "Key" = Some file_key
       /\ dom d = ({[ "Bucket"; "Key" ]} : gset string).
Proof.
  split; [ reflexivity | ]. split; [ reflexivity | ].
  eexists. split; [ reflexivity | ].
  repeat split; vm_compute; reflexivity.
Qed.

(** A run with a client and a bucket name issues its one request, and ends
    as the signer ends. *)
Lemma view_signs file_key expiration w
  (args : ClientArgs) (c : pyval) (s1 : sdk_state) (bucket : pyval) :
  client_args_of (settings w) = Some args ->
  boto3_client args (sdk w) = (Return c, s1) ->
  AWS_STORAGE_BUCKET_NAME (settings w) = Some bucket ->
  sign_requests (new_events (generate_presigned_url file_key expiration) w)
  = [(c, sign_request_of bucket file_key expiration)]
  /\ (generate_presigned_url file_key expiration w).1
     = (client_generate_presigned_url c
          (sign_request_of bucket file_key expiration) s1).1.
Proof.
  intros Hargs Hclient Hbucket.
  destruct (generate_presigned_url_run file_key expiration w)
    as [name' Hname' Hargs' | args' e' s1' Hargs' Hclient'
        | args' c' s1' Hargs' Hclient' Hbucket'
        | args' c' s1' bucket' res' s2' Hargs' Hclient' Hbucket' Hsign'];
    rewrite Hargs in Hargs'; try discriminate Hargs';
    injection Hargs' as <-; rewrite Hclient in Hclient';
    try discriminate Hclient'; injection Hclient' as <- <-;
    rewrite Hbucket in Hbucket'; try discriminate Hbucket';
    injection Hbucket' as <-.
  rewrite Hsign'. split; reflexivity.
Qed.

(** A value the view returns is the answer to its signing request. *)
Lemma view_returns file_key expiration w (v : pyval) :
  (generate_presigned_url file_key expiration w).1 = Return v ->
  exists (self bucket : pyval),
    In (SignRequested self (sign_request_of bucket file_key expiration) (Return v))
      (new_events (generate_presigned_url file_key expiration) w).
Proof.
  destruct (generate_presigned_url_run file_key expiration w)
    as [name Hname Hargs | args e s1 Hargs Hclient
        | args c s1 Hargs Hclient Hbucket
        | args c s1 bucket res s2 Hargs Hclient Hbucket Hsign];
    try discriminate.
  intros ->. exists c, bucket. right. left. reflexivity.
Qed.

(** C2, as amended.  The expiration is forwarded unchanged: every signing
    request of a run carries as [ExpiresIn] the expiration given, or 3600
    when none was given; a run that has its client and its bucket name
    issues that request and ends as the signer ends, and a value the view
    returns is the answer to such a request.  The request of a call with
    [expiration=60] carries 60 and so is not the request of a default
    call, which carries 3600.  What a URL says of its expiry is left to the
    signer. *)
Theorem expiration_is_forwarded file_key :
  (forall expiration w,
      Forall (fun r => ExpiresIn r.2 = default (PyInt 3600) expiration)
        (sign_requests (new_events (generate_presigned_url file_key expiration) w))
      /\ (forall (args : ClientArgs) (c : pyval) (s1 : sdk_state) (bucket : pyval),
            client_args_of (settings w) = Some args ->
            boto3_client args (sdk w) = (Return c, s1) ->
            AWS_STORAGE_BUCKET_NAME (settings w) = Some bucket ->
            exists req : SignRequest,
              sign_requests
                (new_events (generate_presigned_url file_key expiration) w)
              = [(c, req)]
              /\ ExpiresIn req = default (PyInt 3600) expiration
              /\ (generate_presigned_url file_key expiration w).1
                 = (client_generate_presigned_url c req s1).1)
      /\ (forall v : pyval,
            (generate_presigned_url file_key expiration w).1 = Return v ->
            exists (self : pyval) (req : SignRequest),
              In (SignRequested self req (Return v))
                (new_events (generate_presigned_url file_key expiration) w)
              /\ ExpiresIn req = default (PyInt 3600) expiration))
  /\ (forall w1 w2 (r60 r_default : pyval * SignRequest),
        In r60 (sign_requests
                  (new_events (generate_presigned_url file_key (Some (PyInt 60))) w1)) ->
        In r_default (sign_requests
                        (new_events (generate_presigned_url file_key None) w2)) ->
        ExpiresIn r60.2 = PyInt 60
        /\ ExpiresIn r_default.2 = PyInt 3600
        /\ r60.2 <> r_default.2).
Proof.
  assert (Hall : forall expiration w,
             Forall (fun r => ExpiresIn r.2 = default (PyInt 3600) expiration)
               (sign_requests
                  (new_events (generate_presigned_url file_key expiration) w))).
  { intros expiration w. rewrite view_sign_requests.
    repeat case_match; repeat constructor. }
  split.
  - intros expiration w. split; [ apply Hall | ]. split.
    + intros args c s1 bucket Hargs Hclient Hbucket.
      destruct (view_signs file_key expiration w _ _ _ _ Hargs Hclient Hbucket)
        as [Hreq Hres].
      eexists. split; [ exact Hreq | ]. split; [ reflexivity | exact Hres ].
    + intros v Hv.
      destruct (view_returns file_key expiration w v Hv) as (self & bucket & Hin).
      exists self, (sign_request_of bucket file_key expiration).
      split; [ exact Hin | reflexivity ].
  - intros w1 w2 r60 r_default H60 Hdefault.
    pose proof (Hall (Some (PyInt 60)) w1) as F60.
    pose proof (Hall None w2) as Fdefault.
    rewrite Forall_forall in F60, Fdefault.
    apply list_elem_of_In in H60, Hdefault.
    specialize (F60 _ H60). specialize (Fdefault _ Hdefault).
    simpl in F60, Fdefault.
    split; [ exact F60 | ]. split; [ exact Fdefault | ].
    intros Heq. rewrite Heq, Fdefault in F60. discriminate F60.
Qed.

(** C3, as amended.  Every signing request of a run has as [Params] the
    two-entry mapping of [Bucket] to the bucket name of the settings and
    of [Key] to the key given, whatever the key, and as [ExpiresIn] the
    expiration, 3600 by default.  The key is not looked
    at: a run that has its client and its bucket name issues the request
    and ends as the signer ends, a run that issues no request goes the
    same way for every key, and what the view raises is an error of the
    SDK or of reading a name the settings do not define.  What a URL says
    of bucket, key and expiry is left to the signer. *)
Theorem request_names_bucket_and_key file_key expiration w :
  Forall (fun r =>
            ExpiresIn r.2 = default (PyInt 3600) expiration
            /\ exists d : gmap string pyval,
                 Params r.2 = PyDict d
                 /\ d !! "Bucket" = AWS_STORAGE_BUCKET_NAME (settings w)
                 /\ d !! "Key" = Some file_key
                 /\ dom d = ({[ "Bucket"; "Key" ]} : gset string))
    (sign_requests (new_events (generate_presigned_url file_key expiration) w))
  /\ (forall (args : ClientArgs) (c : pyval) (s1 : sdk_state) (bucket : pyval),
        client_args_of (settings w) = Some args ->
        boto3_client args (sdk w) = (Return c, s1) ->
        AWS_STORAGE_BUCKET_NAME (settings w) = Some bucket ->
        exists req : SignRequest,
          sign_requests (new_events (generate_presigned_url file_key expiration) w)
          = [(c, req)]
          /\ (generate_presigned_url file_key expiration w).1
             = (client_generate_presigned_url c req s1).1)
  /\ (forall other_key : pyval,
        sign_requests (new_events (generate_presigned_url file_key expiration) w)
        = [] ->
        generate_presigned_url other_key expiration w
        = generate_presigned_url file_key expiration w)
  /\ (forall e : pyexn,
        (generate_presigned_url file_key expiration w).1 = Raise e ->
        Exists (fun ev => event_outcome ev = Raise e)
          (new_events (generate_presigned_url file_key expiration) w)
        \/ exists name : string,
             In name view_settings
             /\ settings w !! name = None
             /\ e = attribute_error name).
Proof.
  split; [ | split; [ | split ] ].
  - rewrite view_sign_requests.
    destruct (client_args_of (settings w)) as [args | ]; [ | constructor ].
    destruct (boto3_client args (sdk w)).1; [ | constructor ].
    destruct (AWS_STORAGE_BUCKET_NAME (settings w)) as [bucket | ];
      [ | constructor ].
    constructor; [ | constructor ].
    destruct (sign_request_of_fields bucket file_key expiration) as (_ & He & Hd).
    split; [ exact He | exact Hd ].
  - intros args c s1 bucket Hargs Hclient Hbucket.
    destruct (view_signs file_key expiration w _ _ _ _ Hargs Hclient Hbucket)
      as [Hreq Hres].
    eexists. split; [ exact Hreq | exact Hres ].
  - intros other_key. apply unsigned_run_ignores_arguments.
  - intros e He.
    destruct (view_error_cases file_key expiration w e He) as [H | [_ H]];
      [ left | right ]; exact H.
Qed.

(** C4, as amended.  The view raises exactly when the settings lack one of
    the four names it reads or a call it made into the storage client
    raised.  An error of the storage client is raised by the view as it
    is, same class and same message, so an authorization error reaches the
    caller unchanged; any other error of the view is the [AttributeError]
    of reading an undefined name of the settings. *)
Theorem client_errors_propagate file_key expiration w :
  ((exists e : pyexn, (generate_presigned_url file_key expiration w).1 = Raise e)
   <-> (exists name : string, In name view_settings /\ settings w !! name = None)
       \/ Exists (fun ev => raised (event_outcome ev) <> None)
            (new_events (generate_presigned_url file_key expiration) w))
  /\ (forall (ev : Event) (e : pyexn),
        In ev (new_events (generate_presigned_url file_key expiration) w) ->
        event_outcome ev = Raise e ->
        exists e' : pyexn,
          (generate_presigned_url file_key expiration w).1 = Raise e'
          /\ e' = e /\ exn_type e' = exn_type e)
  /\ (forall e : pyexn,
        (generate_presigned_url file_key expiration w).1 = Raise e ->
        Exists (fun ev => event_outcome ev = Raise e)
          (new_events (generate_presigned_url file_key expiration) w)
        \/ (Forall (fun ev => raised (event_outcome ev) = None)
              (new_events (generate_presigned_url file_key expiration) w)
            /\ exists name : string,
                 In name view_settings
                 /\ settings w !! name = None
                 /\ e = attribute_error name)).
Proof.
  split; [ | split ].
  - split.
    + intros [e He].
      destruct (view_error_cases file_key expiration w e He)
        as [H | [_ (name & Hin & Hundef & _)]].
      * right. apply Exists_exists in H as (ev & Hev & Hraise).
        apply Exists_exists. exists ev. split; [ exact Hev | ].
        rewrite Hraise. discriminate.
      * left. exists name. split; assumption.
    + intros [(name & Hin & Hundef) | H].
      * destruct (generate_presigned_url_run file_key expiration w)
          as [name' Hname' Hargs | args e s1 Hargs Hclient
              | args c s1 Hargs Hclient Hbucket
              | args c s1 bucket res s2 Hargs Hclient Hbucket Hsign];
          try (eexists; reflexivity).
        exfalso. apply in_app_or in Hin as [Hin | [<- | []]].
        -- exact (client_args_of_defined _ _ _ Hargs Hin Hundef).
        -- unfold AWS_STORAGE_BUCKET_NAME in Hbucket. congruence.
      * apply Exists_exists in H as (ev & Hev & Hraise).
        destruct (event_outcome ev) as [v | e] eqn:Hout;
          [ contradiction Hraise; reflexivity | ].
        exists e. apply sdk_error_is_raised, Exists_exists.
        exists ev. split; assumption.
  - intros ev e Hin Hev. exists e. split; [ | split; reflexivity ].
    apply sdk_error_is_raised, Exists_exists. exists ev.
    split; [ apply list_elem_of_In; exact Hin | exact Hev ].
  - intros e. apply view_error_cases.
Qed.

(** C5, as amended.  Every call reads region, key id and secret from the
    settings in force.  If one of them is undefined the call raises the
    [AttributeError] of that name and makes no call into the SDK.
    Otherwise it asks once for a new client, for the service [s3] and with
    those three values.  When the client is built and the bucket name is
    defined, the call issues exactly one signing request, on that very
    client, and ends as that request ends; when building the client
    raises, or the bucket name is undefined, it issues no signing request.
    Nothing else happens: the settings are left as they were, the log only
    grows by these calls, and what an earlier call logged has no influence
    on the run. *)
Theorem one_client_then_one_request file_key expiration w :
  let run := generate_presigned_url file_key expiration w in
  let events := new_events (generate_presigned_url file_key expiration) w in
  settings run.2 = settings w
  /\ log run.2 = (log w ++ events)%list
  /\ match client_args_of (settings w) with
     | None =>
         events = [] /\ run.2 = w
         /\ exists name : string,
              In name client_settings
              /\ settings w !! name = None
              /\ run.1 = Raise (attribute_error name)
     | Some args =>
         service_name args = PyStr "s3"
         /\ AWS_S3_REGION_NAME (settings w) = Some (region_name args)
         /\ AWS_ACCESS_KEY_ID (settings w) = Some (aws_access_key_id args)
         /\ AWS_SECRET_ACCESS_KEY (settings w) = Some (aws_secret_access_key args)
         /\ client_requests events = [args]
         /\ match (boto3_client args (sdk w)).1,
                  AWS_STORAGE_BUCKET_NAME (settings w) with
            | Return c, Some _ =>
                exists req : SignRequest,
                  events = [ClientCreated args (Return c);
                            SignRequested c req run.1]
                  /\ sign_requests events = [(c, req)]
            | Return c, None =>
                events = [ClientCreated args (Return c)]
                /\ sign_requests events = []
                /\ run.1 = Raise (attribute_error "AWS_STORAGE_BUCKET_NAME")
            | Raise e, _ =>
                events = [ClientCreated args (Raise e)]
                /\ sign_requests events = []
                /\ run.1 = Raise e
            end
     end
  /\ (forall w' : World sdk_impl,
        settings w' = settings w -> sdk w' = sdk w ->
        (generate_presigned_url file_key expiration w').1 = run.1
        /\ new_events (generate_presigned_url file_key expiration) w' = events
        /\ sdk (generate_presigned_url file_key expiration w').2 = sdk run.2).
Proof.
  cbv zeta. split; [ | split; [ | split ] ].
  - destruct (generate_presigned_url_run file_key expiration w); reflexivity.
  - destruct (generate_presigned_url_run file_key expiration w);
      cbn [log]; rewrite ?app_nil_r; reflexivity.
  - destruct (generate_presigned_url_run file_key expiration w)
      as [name Hname Hargs | args e s1 Hargs Hclient
          | args c s1 Hargs Hclient Hbucket
          | args c s1 bucket res s2 Hargs Hclient Hbucket Hsign];
      rewrite Hargs.
    + split; [ reflexivity | ]. split; [ reflexivity | ].
      destruct (first_undefined_spec _ _ _ Hname) as [Hin Hundef].
      exists name. repeat split; assumption || reflexivity.
    + destruct (client_args_of_fields _ _ Hargs) as (H1 & H2 & H3 & H4).
      rewrite Hclient. cbn [fst]. repeat split; assumption || reflexivity.
    + destruct (client_args_of_fields _ _ Hargs) as (H1 & H2 & H3 & H4).
      rewrite Hclient, Hbucket. cbn [fst].
      repeat split; assumption || reflexivity.
    + destruct (client_args_of_fields _ _ Hargs) as (H1 & H2 & H3 & H4).
      rewrite Hclient, Hbucket. cbn [fst].
      repeat (split; [ assumption || reflexivity | ]).
      eexists. split; reflexivity.
  - intros w' Hsettings Hsdk.
    destruct (generate_presigned_url_run file_key expiration w)
      as [name Hname Hargs | args e s1 Hargs Hclient
          | args c s1 Hargs Hclient Hbucket
          | args c s1 bucket res s2 Hargs Hclient Hbucket Hsign];
      destruct (generate_presigned_url_run file_key expiration w')
        as [name' Hname' Hargs' | args' e' s1' Hargs' Hclient'
            | args' c' s1' Hargs' Hclient' Hbucket'
            | args' c' s1' bucket' res' s2' Hargs' Hclient' Hbucket' Hsign'];
      rewrite Hsettings in *; rewrite Hsdk in *;
      rewrite Hargs in Hargs'; try discriminate Hargs';
      try (injection Hargs' as <-; rewrite Hclient in Hclient';
           try discriminate Hclient'; injection Hclient' as <- <-);
      try (rewrite Hbucket in Hbucket'; try discriminate Hbucket').
    + rewrite Hname in Hname'. injection Hname' as <-.
      repeat split; reflexivity.
    + repeat split; reflexivity.
    + repeat split; reflexivity.
    + injection Hbucket' as <-. rewrite Hsign in Hsign'.
      injection Hsign' as <- <-. repeat split; reflexivity.
Qed.

(** C8.  The operation of every signing request of a run is [get_object],
    and a value the view returns is what such a request returned: the view
    hands out download URLs and nothing else. *)
Theorem only_get_object_is_signed file_key expiration w :
  Forall (fun r => ClientMethod r.2 = PyStr "get_object")
    (sign_requests (new_events (generate_presigned_url file_key expiration) w))
  /\ (forall v : pyval,
        (generate_presigned_url file_key expiration w).1 = Return v ->
        exists (self : pyval) (req : SignRequest),
          In (SignRequested self req (Return v))
            (new_events (generate_presigned_url file_key expiration) w)
          /\ ClientMethod req = PyStr "get_object").
Proof.
  split.
  - rewrite view_sign_requests. repeat case_match; repeat constructor.
  - intros v Hv.
    destruct (view_returns file_key expiration w v Hv) as (self & bucket & Hin).
    exists self, (sign_request_of bucket file_key expiration).
    split; [ exact Hin | reflexivity ].
Qed.

(** C9.  The view does not check the expiration.  Whatever value is passed
    (an integer that is zero or negative, or no integer at all), every
    signing request of the run carries it unchanged, and a run that has
    its client and its bucket name issues the request and ends as the
    signer ends.  The view rejects no value of its own: a run that issues
    no request goes the same way for every value, and what the view raises
    is an error of the SDK or of reading a name the settings do not
    define. *)
Theorem expiration_is_not_validated file_key (value : pyval) w :
  Forall (fun r => ExpiresIn r.2 = value)
    (sign_requests (new_events (generate_presigned_url file_key (Some value)) w))
  /\ (forall (args : ClientArgs) (c : pyval) (s1 : sdk_state) (bucket : pyval),
        client_args_of (settings w) = Some args ->
        boto3_client args (sdk w) = (Return c, s1) ->
        AWS_STORAGE_BUCKET_NAME (settings w) = Some bucket ->
        exists req : SignRequest,
          sign_requests
            (new_events (generate_presigned_url file_key (Some value)) w)
          = [(c, req)]
          /\ ExpiresIn req = value
          /\ (generate_presigned_url file_key (Some value) w).1
             = (client_generate_presigned_url c req s1).1)
  /\ (forall other : option pyval,
        sign_requests (new_events (generate_presigned_url file_key (Some value)) w)
        = [] ->
        generate_presigned_url file_key other w
        = generate_presigned_url file_key (Some value) w)
  /\ (forall e : pyexn,
        (generate_presigned_url file_key (Some value) w).1 = Raise e ->
        Exists (fun ev => event_outcome ev = Raise e)
          (new_events (generate_presigned_url file_key (Some value)) w)
        \/ exists name : string,
             In name view_settings
             /\ settings w !! name = None
             /\ e = attribute_error name).
Proof.
  split; [ | split; [ | split ] ].
  - rewrite view_sign_requests. repeat case_match; repeat constructor.
  - intros args c s1 bucket Hargs Hclient Hbucket.
    destruct (view_signs file_key (Some value) w _ _ _ _ Hargs Hclient Hbucket)
      as [Hreq Hres].
    eexists. split; [ exact Hreq | ]. split; [ reflexivity | exact Hres ].
  - intros other. apply unsigned_run_ignores_arguments.
  - intros e He.
    destruct (view_error_cases file_key (Some value) w e He) as [H | [_ H]];
      [ left | right ]; exact H.
Qed.

End ViewProperties.

(** * The view on the reference client *)

Section ReferenceRuns.

Import SecureShare.

(** A default call, and a call with [expiration=60]. *)
Example default_call_url :
  (generate_presigned_url (PyStr "reports/q1.pdf") None
     (ReferenceSdk.world_of ReferenceSdk.configured)).1
  = Return (PyStr ("https://shared-files.s3.amazonaws.com/reports/q1.pdf"
                   ++ "?X-Amz-Algorithm=AWS4-HMAC-SHA256"
                   ++ "&X-Amz-Expires=3600&X-Amz-SignedHeaders=host")).
Proof. vm_compute. reflexivity. Qed.

Example one_minute_call_url :
  (generate_presigned_url (PyStr "reports/q1.pdf") (Some (PyInt 60))
     (ReferenceSdk.world_of ReferenceSdk.configured)).1
  = Return (PyStr ("https://shared-files.s3.amazonaws.com/reports/q1.pdf"
                   ++ "?X-Amz-Algorithm=AWS4-HMAC-SHA256"
                   ++ "&X-Amz-Expires=60&X-Amz-SignedHeaders=host")).
Proof. vm_compute. reflexivity. Qed.

(** Two calls in a row build two clients. *)
Example two_calls_two_clients :
  let w1 := (generate_presigned_url (PyStr "reports/q1.pdf") None
               (ReferenceSdk.world_of ReferenceSdk.configured)).2 in
  let w2 := (generate_presigned_url (PyStr "reports/q1.pdf") None w1).2 in
  map fst (sign_requests (log w2)) = [PyObject "S3" 0; PyObject "S3" 1]
  /\ length (client_requests (log w2)) = 2%nat.
Proof. vm_compute. split; reflexivity. Qed.

End ReferenceRuns.

(** C2 as stated fails with a signer of the older format: the lifetime is
    forwarded, 60 and 3600, and the URLs that come back have no
    [X-Amz-Expires]; their [Expires] is a time, not the lifetime. *)
Lemma url_expiry_counterexample :
  exists url60 url_default : string,
    (SecureShare.generate_presigned_url (PyStr "reports/q1.pdf") (Some (PyInt 60))
       (LegacySdk.world_of ReferenceSdk.configured)).1
    = Return (PyStr url60)
    /\ (SecureShare.generate_presigned_url (PyStr "reports/q1.pdf") None
          (LegacySdk.world_of ReferenceSdk.configured)).1
       = Return (PyStr url_default)
    /\ Url.expiry url60 = None
    /\ Url.query_param "Expires" url60 = Some "1700000060"
    /\ Url.expiry url_default = None
    /\ Url.query_param "Expires" url_default = Some "1700003600".
Proof.
  eexists. eexists.
  split; [ vm_compute; reflexivity | ].
  split; [ vm_compute; reflexivity | ].
  repeat split; vm_compute; reflexivity.
Qed.

(** C2, as amended, on the reference client: the two requests. *)
Lemma expiration_is_forwarded_witness :
  exists r60 r_default : pyval * SecureShare.SignRequest,
    In r60 (SecureShare.sign_requests
              (SecureShare.new_events
                 (SecureShare.generate_presigned_url (PyStr "reports/q1.pdf")
                    (Some (PyInt 60)))
                 (ReferenceSdk.world_of ReferenceSdk.configured)))
    /\ In r_default (SecureShare.sign_requests
                       (SecureShare.new_events
                          (SecureShare.generate_presigned_url
                             (PyStr "reports/q1.pdf") None)
                          (ReferenceSdk.world_of ReferenceSdk.configured)))
    /\ SecureShare.ExpiresIn r60.2 = PyInt 60
    /\ SecureShare.ExpiresIn r_default.2 = PyInt 3600
    /\ r60.2 <> r_default.2.
Proof.
  exists (PyObject "S3" 0,
          SecureShare.sign_request_of (PyStr "shared-files")
            (PyStr "reports/q1.pdf") (Some (PyInt 60))),
         (PyObject "S3" 0,
          SecureShare.sign_request_of (PyStr "shared-files")
            (PyStr "reports/q1.pdf") None).
  assert (H60 : In (PyObject "S3" 0,
                    SecureShare.sign_request_of (PyStr "shared-files")
                      (PyStr "reports/q1.pdf") (Some (PyInt 60)))
                  (SecureShare.sign_requests
                     (SecureShare.new_events
                        (SecureShare.generate_presigned_url (PyStr "reports/q1.pdf")
                           (Some (PyInt 60)))
                        (ReferenceSdk.world_of ReferenceSdk.configured))))
    by (left; vm_compute; reflexivity).
  assert (Hdefault : In (PyObject "S3" 0,
                         SecureShare.sign_request_of (PyStr "shared-files")
                           (PyStr "reports/q1.pdf") None)
                       (SecureShare.sign_requests
                          (SecureShare.new_events
                             (SecureShare.generate_presigned_url
                                (PyStr "reports/q1.pdf") None)
                             (ReferenceSdk.world_of ReferenceSdk.configured))))
    by (left; vm_compute; reflexivity).
  split; [ exact H60 | ]. split; [ exact Hdefault | ].
  destruct (expiration_is_forwarded (sdk_impl := ReferenceSdk.sdk)
              (PyStr "reports/q1.pdf")) as [_ Hdiffer].
  exact (Hdiffer _ _ _ _ H60 Hdefault).
Defined.

(** C3 as stated fails with a signer of the older format: the URL for
    [reports/q1.pdf] and the default expiration names the bucket and the
    key, and has no expiry parameter equal to 3600. *)
Lemma q1_url_expiry_counterexample :
  exists url : string,
    (SecureShare.generate_presigned_url (PyStr "reports/q1.pdf") None
       (LegacySdk.world_of ReferenceSdk.configured)).1
    = Return (PyStr url)
    /\ Url.contains url "shared-files"
    /\ Url.contains url "reports/q1.pdf"
    /\ Url.expiry url <> Some 3600%Z
    /\ Url.query_param "Expires" url <> Some "3600".
Proof.
  eexists. split; [ vm_compute; reflexivity | ].
  split; [ exists "https://"; eexists; vm_compute; reflexivity | ].
  split; [ exists "https://shared-files.s3.amazonaws.com/"; eexists;
           vm_compute; reflexivity | ].
  split; vm_compute; discriminate.
Qed.

(** C3, as amended, on the reference client: the request for
    [reports/q1.pdf], and the run ending as the signer ends. *)
Lemma request_names_bucket_and_key_witness :
  exists (args : SecureShare.ClientArgs) (c : pyval) (s1 : ReferenceSdk.state)
         (bucket : pyval) (req : SecureShare.SignRequest),
    SecureShare.client_args_of ReferenceSdk.configured = Some args
    /\ ReferenceSdk.client args ReferenceSdk.initial = (Return c, s1)
    /\ SecureShare.AWS_STORAGE_BUCKET_NAME ReferenceSdk.configured = Some bucket
    /\ SecureShare.sign_requests
         (SecureShare.new_events
            (SecureShare.generate_presigned_url (PyStr "reports/q1.pdf") None)
            (ReferenceSdk.world_of ReferenceSdk.configured))
       = [(c, req)]
    /\ (SecureShare.generate_presigned_url (PyStr "reports/q1.pdf") None
          (ReferenceSdk.world_of ReferenceSdk.configured)).1
       = (ReferenceSdk.generate_presigned_url c req s1).1.
Proof.
  destruct (request_names_bucket_and_key (sdk_impl := ReferenceSdk.sdk)
              (PyStr "reports/q1.pdf") None
              (ReferenceSdk.world_of ReferenceSdk.configured))
    as (_ & Hissued & _).
  eexists. eexists. eexists. eexists.
  destruct (Hissued _ _ _ _
              ltac:(vm_compute; reflexivity)
              ltac:(vm_compute; reflexivity)
              ltac:(vm_compute; reflexivity))
    as (req & Hreq & Hres).
  exists req.
  split; [ vm_compute; reflexivity | ].
  split; [ vm_compute; reflexivity | ].
  split; [ vm_compute; reflexivity | ].
  split; [ exact Hreq | exact Hres ].
Defined.

(** C4 as stated fails when the settings do not define the bucket name:
    the client is built, no call into the SDK raises, and the view raises
    the [AttributeError] of the read. *)
Lemma undefined_bucket_counterexample :
  (SecureShare.generate_presigned_url (PyStr "reports/q1.pdf") None
     (ReferenceSdk.world_of ReferenceSdk.without_bucket)).1
  = Raise (PyExn "AttributeError"
             "'Settings' object has no attribute 'AWS_STORAGE_BUCKET_NAME'")
  /\ length (SecureShare.client_requests
               (SecureShare.new_events
                  (SecureShare.generate_presigned_url (PyStr "reports/q1.pdf") None)
                  (ReferenceSdk.world_of ReferenceSdk.without_bucket)))
     = 1%nat
  /\ ~ Exists (fun ev => raised (SecureShare.event_outcome ev) <> None)
         (SecureShare.new_events
            (SecureShare.generate_presigned_url (PyStr "reports/q1.pdf") None)
            (ReferenceSdk.world_of ReferenceSdk.without_bucket)).
Proof.
  split; [ vm_compute; reflexivity | ].
  split; [ vm_compute; reflexivity | ].
  intros H. apply Exists_exists in H as (ev & Hev & Hraise).
  apply list_elem_of_In in Hev. vm_compute in Hev.
  destruct Hev as [<- | []]. apply Hraise. reflexivity.
Qed.

(** C4, as amended, on the reference client: without credentials the
    signer refuses, and the caller gets its [NoCredentialsError]. *)
Lemma client_errors_propagate_witness :
  exists ev : SecureShare.Event,
    In ev (SecureShare.new_events
             (SecureShare.generate_presigned_url (PyStr "reports/q1.pdf") None)
             (ReferenceSdk.world_of ReferenceSdk.unconfigured))
    /\ SecureShare.event_outcome ev
       = Raise (PyExn "NoCredentialsError" "Unable to locate credentials")
    /\ exists e' : pyexn,
         (SecureShare.generate_presigned_url (PyStr "reports/q1.pdf") None
            (ReferenceSdk.world_of ReferenceSdk.unconfigured)).1
         = Raise e'
         /\ e' = PyExn "NoCredentialsError" "Unable to locate credentials"
         /\ exn_type e' = "NoCredentialsError".
Proof.
  destruct (client_errors_propagate (sdk_impl := ReferenceSdk.sdk)
              (PyStr "reports/q1.pdf") None
              (ReferenceSdk.world_of ReferenceSdk.unconfigured))
    as (_ & Hsame & _).
  assert (Hin : In (SecureShare.SignRequested (PyObject "S3" 0)
                      (SecureShare.sign_request_of (PyStr "shared-files")
                         (PyStr "reports/q1.pdf") None)
                      (Raise (PyExn "NoCredentialsError"
                                "Unable to locate credentials")))
                  (SecureShare.new_events
                     (SecureShare.generate_presigned_url (PyStr "reports/q1.pdf") None)
                     (ReferenceSdk.world_of ReferenceSdk.unconfigured)))
    by (right; left; vm_compute; reflexivity).
  eexists. split; [ exact Hin | ]. split; [ reflexivity | ].
  exact (Hsame _ _ Hin eq_refl).
Defined.

(** C5 as stated fails in two ways.  With only one half of the credentials
    in the settings, [boto3.client] raises and the call ends without
    having issued any signing request; with no region in the settings,
    the call ends before it has asked for a client. *)
Lemma exactly_one_request_counterexample :
  ((SecureShare.generate_presigned_url (PyStr "reports/q1.pdf") None
      (ReferenceSdk.world_of ReferenceSdk.half_configured)).1
   = Raise (PyExn "PartialCredentialsError"
              "Partial credentials found in explicit, missing: aws_secret_access_key")
   /\ ~ (exists r : pyval * SecureShare.SignRequest,
           SecureShare.sign_requests
             (SecureShare.new_events
                (SecureShare.generate_presigned_url (PyStr "reports/q1.pdf") None)
                (ReferenceSdk.world_of ReferenceSdk.half_configured))
           = [r]))
  /\ ((SecureShare.generate_presigned_url (PyStr "reports/q1.pdf") None
         (ReferenceSdk.world_of ReferenceSdk.without_region)).1
      = Raise (PyExn "AttributeError"
                 "'Settings' object has no attribute 'AWS_S3_REGION_NAME'")
      /\ SecureShare.new_events
           (SecureShare.generate_presigned_url (PyStr "reports/q1.pdf") None)
           (ReferenceSdk.world_of ReferenceSdk.without_region)
         = []).
Proof.
  split; split; try (vm_compute; reflexivity).
  intros [r Hr]. vm_compute in Hr. discriminate Hr.
Qed.

(** C8 on the reference client: the URL returned is the one the
    [get_object] request returned. *)
Lemma only_get_object_is_signed_witness :
  exists (url : string) (self : pyval) (req : SecureShare.SignRequest),
    (SecureShare.generate_presigned_url (PyStr "reports/q1.pdf") None
       (ReferenceSdk.world_of ReferenceSdk.configured)).1
    = Return (PyStr url)
    /\ In (SecureShare.SignRequested self req (Return (PyStr url)))
         (SecureShare.new_events
            (SecureShare.generate_presigned_url (PyStr "reports/q1.pdf") None)
            (ReferenceSdk.world_of ReferenceSdk.configured))
    /\ SecureShare.ClientMethod req = PyStr "get_object".
Proof.
  destruct (only_get_object_is_signed (sdk_impl := ReferenceSdk.sdk)
              (PyStr "reports/q1.pdf") None
              (ReferenceSdk.world_of ReferenceSdk.configured))
    as [_ Hreturned].
  eexists.
  destruct (Hreturned _ ltac:(vm_compute; reflexivity)) as (self & req & Hin & Hop).
  exists self, req.
  split; [ vm_compute; reflexivity | ]. split; [ exact Hin | exact Hop ].
Defined.

(** C9 on the reference client: a negative expiration goes through to the
    signer, and the URL comes back with it. *)
Lemma expiration_is_not_validated_witness :
  exists (args : SecureShare.ClientArgs) (c : pyval) (s1 : ReferenceSdk.state)
         (bucket : pyval) (req : SecureShare.SignRequest),
    SecureShare.client_args_of ReferenceSdk.configured = Some args
    /\ ReferenceSdk.client args ReferenceSdk.initial = (Return c, s1)
    /\ SecureShare.AWS_STORAGE_BUCKET_NAME ReferenceSdk.configured = Some bucket
    /\ SecureShare.sign_requests
         (SecureShare.new_events
            (SecureShare.generate_presigned_url (PyStr "reports/q1.pdf")
               (Some (PyInt (-60))))
            (ReferenceSdk.world_of ReferenceSdk.configured))
       = [(c, req)]
    /\ SecureShare.ExpiresIn req = PyInt (-60)
    /\ (SecureShare.generate_presigned_url (PyStr "reports/q1.pdf")
          (Some (PyInt (-60))) (ReferenceSdk.world_of ReferenceSdk.configured)).1
       = Return (PyStr (ReferenceSdk.presigned_url "shared-files" "reports/q1.pdf" (-60))).
Proof.
  destruct (expiration_is_not_validated (sdk_impl := ReferenceSdk.sdk)
              (PyStr "reports/q1.pdf") (PyInt (-60))
              (ReferenceSdk.world_of ReferenceSdk.configured))
    as (_ & Hissued & _).
  eexists. eexists. eexists. eexists.
  destruct (Hissued _ _ _ _
              ltac:(vm_compute; reflexivity)
              ltac:(vm_compute; reflexivity)
              ltac:(vm_compute; reflexivity))
    as (req & Hreq & Hexp & Hres).
  exists req.
  split; [ vm_compute; reflexivity | ].
  split; [ vm_compute; reflexivity | ].
  split; [ vm_compute; reflexivity | ].
  split; [ exact Hreq | ]. split; [ exact Hexp | ].
  vm_compute. reflexivity.
Defined.

(** * What reaches the storage client, and what a run of calls leaves *)

Section ViewFlows.

Import SecureShare Process.

Context {sdk_impl : Boto3}.

Implicit Types (file_key : pyval) (expiration : option pyval) (w : World sdk_impl).

Lemma client_requests_app (evs1 evs2 : list Event) :
  client_requests (evs1 ++ evs2)%list
  = (client_requests evs1 ++ client_requests evs2)%list.
Proof.
  induction evs1 as [ | [args res | self req res] evs1 IH ]; simpl;
    [ reflexivity | f_equal; exact IH | exact IH ].
Qed.

Lemma sign_requests_app (evs1 evs2 : list Event) :
  sign_requests (evs1 ++ evs2)%list
  = (sign_requests evs1 ++ sign_requests evs2)%list.
Proof.
  induction evs1 as [ | [args res | self req res] evs1 IH ]; simpl;
    [ reflexivity | exact IH | f_equal; exact IH ].
Qed.

(** In a log made of blocks, a signing request stands right after the
    construction of the client it is made on. *)
Lemma paired_log_lookup (evs : list Event) :
  paired_log evs ->
  forall (i : nat) (c : pyval) (req : SignRequest) (res : outcome pyval),
    evs !! i = Some (SignRequested c req res) ->
    exists (j : nat) (args : ClientArgs),
      i = S j /\ evs !! j = Some (ClientCreated args (Return c)).
Proof.
  induction 1 as [ | evs args res0 _ IH | evs args c0 req0 res0 _ IH ];
    intros i c req res Hi.
  - rewrite lookup_nil in Hi. discriminate Hi.
  - apply lookup_app_Some in Hi as [Hi | [Hle Hi]].
    + destruct (IH _ _ _ _ Hi) as (j & a & -> & Hj).
      exists j, a. split; [ reflexivity | ].
      apply lookup_app_l_Some. exact Hj.
    + destruct (i - length evs)%nat as [ | k ]; simpl in Hi;
        [ discriminate Hi | rewrite lookup_nil in Hi; discriminate Hi ].
  - apply lookup_app_Some in Hi as [Hi | [Hle Hi]].
    + destruct (IH _ _ _ _ Hi) as (j & a & -> & Hj).
      exists j, a. split; [ reflexivity | ].
      apply lookup_app_l_Some. exact Hj.
    + destruct (i - length evs)%nat as [ | [ | k ] ] eqn:Hk; simpl in Hi.
      * discriminate Hi.
      * injection Hi as <- <- <-.
        exists (length evs), args. split; [ lia | ].
        rewrite lookup_app_r by lia. rewrite Nat.sub_diag. reflexivity.
      * rewrite lookup_nil in Hi. discriminate Hi.
Qed.

(** One call adds at most one block to the log. *)
Lemma view_keeps_paired_log file_key expiration w :
  paired_log (log w) ->
  paired_log (log (generate_presigned_url file_key expiration w).2).
Proof.
  intros Hlog.
  destruct (generate_presigned_url_run file_key expiration w)
    as [name Hname Hargs | args e s1 Hargs Hclient
        | args c s1 Hargs Hclient Hbucket
        | args c s1 bucket res s2 Hargs Hclient Hbucket Hsign]; cbn [log].
  - exact Hlog.
  - apply paired_alone. exact Hlog.
  - apply paired_alone. exact Hlog.
  - apply paired_signed. exact Hlog.
Qed.

Lemma after_calls_paired_log (calls : list (pyval * option pyval)) w :
  paired_log (log w) -> paired_log (log (after_calls calls w)).
Proof.
  revert w. induction calls as [ | [file_key expiration] calls IH ];
    intros w Hlog; simpl; [ exact Hlog | ].
  apply IH, view_keeps_paired_log, Hlog.
Qed.

(** What one call leaves: the settings, the client requests with one more
    when the client settings are defined, at most one more signing
    request, and the world itself when they are not. *)
Lemma view_step file_key expiration w :
  settings (generate_presigned_url file_key expiration w).2 = settings w
  /\ log w `prefix_of` log (generate_presigned_url file_key expiration w).2
  /\ match client_args_of (settings w) with
     | Some args =>
         client_requests (log (generate_presigned_url file_key expiration w).2)
         = (client_requests (log w) ++ [args])%list
         /\ (length (sign_requests
                       (log (generate_presigned_url file_key expiration w).2))
             <= S (length (sign_requests (log w))))%nat
     | None => (generate_presigned_url file_key expiration w).2 = w
     end.
Proof.
  destruct (generate_presigned_url_run file_key expiration w)
    as [name Hname Hargs | args e s1 Hargs Hclient
        | args c s1 Hargs Hclient Hbucket
        | args c s1 bucket res s2 Hargs Hclient Hbucket Hsign];
    rewrite Hargs; cbn [settings log];
    (split; [ reflexivity | ]);
    (split; [ try reflexivity; apply prefix_app_r; reflexivity | ]);
    try reflexivity;
    rewrite client_requests_app, sign_requests_app, length_app;
    cbn [client_requests sign_requests length];
    (split; [ reflexivity | lia ]).
Qed.

(** X1.  The caller's arguments do not reach the construction of the
    client: from one world, two calls with any keys and expirations ask for
    the same client and get the same answer, and when no client could be
    built the whole run (outcome and world left) is the same for both. *)
Theorem client_request_ignores_arguments
  file_key1 expiration1 file_key2 expiration2 w :
  head (new_events (generate_presigned_url file_key1 expiration1) w)
  = head (new_events (generate_presigned_url file_key2 expiration2) w)
  /\ (sign_requests (new_events (generate_presigned_url file_key1 expiration1) w)
      = [] ->
      generate_presigned_url file_key2 expiration2 w
      = generate_presigned_url file_key1 expiration1 w).
Proof.
  split; [ | apply unsigned_run_ignores_arguments ].
  destruct (generate_presigned_url_run file_key1 expiration1 w)
    as [name Hname Hargs | args e s1 Hargs Hclient
        | args c s1 Hargs Hclient Hbucket
        | args c s1 bucket res s2 Hargs Hclient Hbucket Hsign];
    destruct (generate_presigned_url_run file_key2 expiration2 w)
      as [name' Hname' Hargs' | args' e' s1' Hargs' Hclient'
          | args' c' s1' Hargs' Hclient' Hbucket'
          | args' c' s1' bucket' res' s2' Hargs' Hclient' Hbucket' Hsign'];
    rewrite Hargs in Hargs'; try discriminate Hargs';
    try (injection Hargs' as <-; rewrite Hclient in Hclient';
         try discriminate Hclient'; injection Hclient' as <- <-);
    reflexivity.
Qed.

(** X2.  The key reaches the [Key] entry of the request and nothing else:
    from one world and with one expiration, the signing requests for two
    keys are made on the same client, with the same operation and
    lifetime, and their [Params] agree once [Key] is taken out. *)
Theorem file_key_reaches_only_key file_key1 file_key2 expiration w :
  Forall2
    (fun r1 r2 =>
       r1.1 = r2.1
       /\ ClientMethod r1.2 = ClientMethod r2.2
       /\ ExpiresIn r1.2 = ExpiresIn r2.2
       /\ exists d1 d2 : gmap string pyval,
            Params r1.2 = PyDict d1 /\ Params r2.2 = PyDict d2
            /\ d1 !! "Key" = Some file_key1 /\ d2 !! "Key" = Some file_key2
            /\ delete "Key" d1 = delete "Key" d2)
    (sign_requests (new_events (generate_presigned_url file_key1 expiration) w))
    (sign_requests (new_events (generate_presigned_url file_key2 expiration) w)).
Proof.
  rewrite !view_sign_requests.
  destruct (client_args_of (settings w)) as [args | ]; [ | constructor ].
  destruct (boto3_client args (sdk w)).1; [ | constructor ].
  destruct (AWS_STORAGE_BUCKET_NAME (settings w)) as [bucket | ];
    repeat constructor.
  eexists. eexists. split; [ reflexivity | ]. split; [ reflexivity | ].
  split; [ vm_compute; reflexivity | ]. split; [ vm_compute; reflexivity | ].
  unfold dict_display. cbn [fold_left fst snd].
  rewrite !delete_insert_eq. reflexivity.
Qed.

(** X3.  Region and credentials do not reach the signing request: in two
    worlds that agree on the bucket name, whatever else they hold, the
    requests for one key and expiration have the same operation, [Params]
    and lifetime. *)
Theorem signing_request_ignores_credentials
  file_key expiration (w1 w2 : World sdk_impl) :
  AWS_STORAGE_BUCKET_NAME (settings w1) = AWS_STORAGE_BUCKET_NAME (settings w2) ->
  forall r1 r2 : pyval * SignRequest,
    In r1 (sign_requests (new_events (generate_presigned_url file_key expiration) w1)) ->
    In r2 (sign_requests (new_events (generate_presigned_url file_key expiration) w2)) ->
    r1.2 = r2.2.
Proof.
  intros Hbucket r1 r2. rewrite !view_sign_requests, Hbucket.
  destruct (AWS_STORAGE_BUCKET_NAME (settings w2)) as [bucket | ].
  - destruct (client_args_of (settings w1)) as [args1 | ]; [ | intros [] ].
    destruct (boto3_client args1 (sdk w1)).1; [ | intros [] ].
    destruct (client_args_of (settings w2)) as [args2 | ]; [ | intros _ [] ].
    destruct (boto3_client args2 (sdk w2)).1; [ | intros _ [] ].
    intros [<- | []] [<- | []]. reflexivity.
  - destruct (client_args_of (settings w1)) as [args1 | ]; [ | intros [] ].
    destruct (boto3_client args1 (sdk w1)).1; intros [].
Qed.

(** X4.  However many calls a process makes, and however they end, the
    settings stay as they were and nothing is taken out of the log.  When
    the settings define region, key id and secret, every call has asked
    for a client of its own with the same arguments, and there are at most
    as many signing requests as calls; when they do not, no call has
    reached the SDK and the world is as it was. *)
Theorem calls_build_one_client_each (calls : list (pyval * option pyval)) w :
  settings (after_calls calls w) = settings w
  /\ log w `prefix_of` log (after_calls calls w)
  /\ match client_args_of (settings w) with
     | Some args =>
         client_requests (log (after_calls calls w))
         = (client_requests (log w) ++ replicate (length calls) args)%list
         /\ (length (sign_requests (log (after_calls calls w)))
             <= length (sign_requests (log w)) + length calls)%nat
     | None => after_calls calls w = w
     end.
Proof.
  revert w. induction calls as [ | [file_key expiration] calls IH ]; intros w.
  - simpl. split; [ reflexivity | ]. split; [ reflexivity | ].
    destruct (client_args_of (settings w)); [ | reflexivity ].
    rewrite app_nil_r, Nat.add_0_r. split; reflexivity.
  - cbn [after_calls length replicate].
    destruct (IH (generate_presigned_url file_key expiration w).2)
      as (Hsettings & Hprefix & Hrest).
    destruct (view_step file_key expiration w) as (Hsettings1 & Hprefix1 & Hstep).
    rewrite Hsettings1 in Hsettings, Hrest.
    split; [ exact Hsettings | ].
    split; [ etransitivity; [ exact Hprefix1 | exact Hprefix ] | ].
    destruct (client_args_of (settings w)) as [args | ].
    + destruct Hrest as [Hclients Hsigns]. destruct Hstep as [Hclients1 Hsigns1].
      split.
      * rewrite Hclients, Hclients1, <- app_assoc. reflexivity.
      * lia.
    + rewrite Hrest. exact Hstep.
Qed.

(** X5.  No client is kept from one call to a later one: in the log of a
    process that started with an empty log, every signing request stands
    right after the construction that returned the client it is made on. *)
Theorem signing_client_was_just_built
  (calls : list (pyval * option pyval)) w
  (i : nat) (c : pyval) (req : SignRequest) (res : outcome pyval) :
  log w = [] ->
  log (after_calls calls w) !! i = Some (SignRequested c req res) ->
  exists (j : nat) (args : ClientArgs),
    i = S j
    /\ log (after_calls calls w) !! j = Some (ClientCreated args (Return c)).
Proof.
  intros Hempty Hi.
  eapply paired_log_lookup; [ | exact Hi ].
  apply after_calls_paired_log. rewrite Hempty. apply paired_nil.
Qed.

End ViewFlows.


(** X1 on the reference client: with half of the credentials missing, a
    call for another key and lifetime ends exactly as the first did. *)
Lemma client_request_ignores_arguments_witness :
  SecureShare.sign_requests
    (SecureShare.new_events
       (SecureShare.generate_presigned_url (PyStr "reports/q1.pdf") None)
       (ReferenceSdk.world_of ReferenceSdk.half_configured))
  = []
  /\ SecureShare.generate_presigned_url (PyStr "notes.txt") (Some (PyInt 60))
       (ReferenceSdk.world_of ReferenceSdk.half_configured)
     = SecureShare.generate_presigned_url (PyStr "reports/q1.pdf") None
         (ReferenceSdk.world_of ReferenceSdk.half_configured).
Proof.
  assert (H : SecureShare.sign_requests
                (SecureShare.new_events
                   (SecureShare.generate_presigned_url (PyStr "reports/q1.pdf") None)
                   (ReferenceSdk.world_of ReferenceSdk.half_configured))
              = []) by (vm_compute; reflexivity).
  split; [ exact H | ].
  apply (client_request_ignores_arguments (sdk_impl := ReferenceSdk.sdk)
           (PyStr "reports/q1.pdf") None (PyStr "notes.txt") (Some (PyInt 60))
           (ReferenceSdk.world_of ReferenceSdk.half_configured)).
  exact H.
Defined.

(** X3 on the reference client: two configurations with other regions and
    credentials and the same bucket. *)
Lemma signing_request_ignores_credentials_witness :
  exists r1 r2 : pyval * SecureShare.SignRequest,
    In r1 (SecureShare.sign_requests
             (SecureShare.new_events
                (SecureShare.generate_presigned_url (PyStr "reports/q1.pdf") None)
                (ReferenceSdk.world_of ReferenceSdk.configured)))
    /\ In r2 (SecureShare.sign_requests
                (SecureShare.new_events
                   (SecureShare.generate_presigned_url (PyStr "reports/q1.pdf") None)
                   (ReferenceSdk.world_of
                      ReferenceSdk.elsewhere)))
    /\ r1.2 = r2.2.
Proof.
  eexists. eexists.
  assert (H1 : forall r, r = (PyObject "S3" 0,
                 SecureShare.sign_request_of (PyStr "shared-files")
                   (PyStr "reports/q1.pdf") None) ->
               In r (SecureShare.sign_requests
                       (SecureShare.new_events
                          (SecureShare.generate_presigned_url (PyStr "reports/q1.pdf") None)
                          (ReferenceSdk.world_of ReferenceSdk.configured))))
    by (intros r ->; left; vm_compute; reflexivity).
  assert (H2 : forall r, r = (PyObject "S3" 0,
                 SecureShare.sign_request_of (PyStr "shared-files")
                   (PyStr "reports/q1.pdf") None) ->
               In r (SecureShare.sign_requests
                       (SecureShare.new_events
                          (SecureShare.generate_presigned_url (PyStr "reports/q1.pdf") None)
                          (ReferenceSdk.world_of
                             ReferenceSdk.elsewhere))))
    by (intros r ->; left; vm_compute; reflexivity).
  split; [ apply H1; reflexivity | ]. split; [ apply H2; reflexivity | ].
  apply (signing_request_ignores_credentials (sdk_impl := ReferenceSdk.sdk)
           (PyStr "reports/q1.pdf") None
           (ReferenceSdk.world_of ReferenceSdk.configured)
           (ReferenceSdk.world_of
              ReferenceSdk.elsewhere));
    [ reflexivity | apply H1; reflexivity | apply H2; reflexivity ].
Defined.

(** X5 on the reference client: the second of two calls signs, at position
    3 of the log, on the client built at position 2. *)
Lemma signing_client_was_just_built_witness :
  SecureShare.log (ReferenceSdk.world_of ReferenceSdk.configured) = []
  /\ exists (req : SecureShare.SignRequest) (res : outcome pyval)
            (j : nat) (args : SecureShare.ClientArgs),
       SecureShare.log
         (Process.after_calls
            [ (PyStr "reports/q1.pdf", None);
              (PyStr "reports/q1.pdf", Some (PyInt 60)) ]
            (ReferenceSdk.world_of ReferenceSdk.configured)) !! 3%nat
       = Some (SecureShare.SignRequested (PyObject "S3" 1) req res)
       /\ 3%nat = S j
       /\ SecureShare.log
            (Process.after_calls
               [ (PyStr "reports/q1.pdf", None);
                 (PyStr "reports/q1.pdf", Some (PyInt 60)) ]
               (ReferenceSdk.world_of ReferenceSdk.configured)) !! j
          = Some (SecureShare.ClientCreated args (Return (PyObject "S3" 1))).
Proof.
  split; [ reflexivity | ].
  eexists. eexists.
  assert (H3 : SecureShare.log
                 (Process.after_calls
                    [ (PyStr "reports/q1.pdf", None);
                      (PyStr "reports/q1.pdf", Some (PyInt 60)) ]
                    (ReferenceSdk.world_of ReferenceSdk.configured)) !! 3%nat
               = Some (SecureShare.SignRequested (PyObject "S3" 1) _ _))
    by (vm_compute; reflexivity).
  destruct (signing_client_was_just_built (sdk_impl := ReferenceSdk.sdk)
              [ (PyStr "reports/q1.pdf", None);
                (PyStr "reports/q1.pdf", Some (PyInt 60)) ]
              (ReferenceSdk.world_of ReferenceSdk.configured)
              3%nat _ _ _ eq_refl H3) as (j & args & Hj & Hbuilt).
  exists j, args. split; [ exact H3 | ]. split; [ exact Hj | exact Hbuilt ].
Defined.
